(** * Muhtasim-Baby: the Gradio echo stub and the static info page

    A shallow embedding of the two scripts of the repository,

    - [src/app.py]: the placeholder [process] handler, the form it is
      bound to by [build_ui], and the start-up block that reads the port
      from the environment and launches the server;
    - [src/web/Space.py]: [create_interface], which wraps a constant HTML
      document in an HTML widget;

    followed by the properties of the routing rule, of the port
    resolution and of the info page.

    Python strings are modelled as [string] (a sequence of bytes holding
    the UTF-8 encoding of the text), Python integers as [Z], and
    [os.environ] as a finite map from names to strings. What belongs to
    the interpreter and not to the scripts (the digit limit of [int] and
    the character tables it consults) is a parameter, [interpreter]. *)

From Stdlib Require Import ZArith NArith Ascii String Lia.
From stdpp Require Import base strings gmap.

Local Open Scope Z_scope.

(** ** The fragment of Python the scripts rely on *)

Module Py.

(** A form field holds a [str] or [None] (the signature of [process]
    announces [str]; the audio upload hands over [None] when no file was
    chosen): an [option string]. *)

(** Truth value testing, as done by [if v:]: [None] and the empty string
    are false, every other string is true. *)
Definition truthy (v : option string) : bool :=
  match v with
  | None => false
  | Some EmptyString => false
  | Some (String _ _) => true
  end.

(** [str(v)], which is what a replacement field [{v}] of an f-string
    inserts. *)
Definition str (v : option string) : string :=
  match v with
  | None => "None"
  | Some s => s
  end.

(** The argument of [int] at start-up: a [str] taken from the
    environment, or the [int] default. *)
Inductive value : Type :=
| VStr (s : string)
| VInt (z : Z).

(** The exceptions: the one the modelled built-ins raise, and any other
    one, named by its class, that a method of a user object may raise. *)
Inductive exn : Type :=
| ValueError
| OtherError (name : string).

(** A computation either returns a value or raises. An exception that
    nothing catches ends the program. *)
Inductive outcome (A : Type) : Type :=
| Returned (a : A)
| Raised (e : exn).
Arguments Returned {A} a.
Arguments Raised {A} e.

Global Instance outcome_ret : MRet outcome := fun A a => Returned a.

Global Instance outcome_bind : MBind outcome := fun A B k m =>
  match m with
  | Returned a => k a
  | Raised e => Raised e
  end.

(** *** The interpreter

    What [int] consults besides its argument: the digit limit in force
    ([sys.get_int_max_str_digits()], zero when there is none), and the
    two tables of the Unicode database, [Py_UNICODE_ISSPACE] and
    [Py_UNICODE_TODECIMAL], on code points.

    The limit is fixed when the interpreter starts: by the option
    [-X int_max_str_digits], else by [PYTHONINTMAXSTRDIGITS] unless the
    interpreter is told to ignore its environment ([-E], [-I]), else by
    the default; an interpreter that predates the limit has none. It is
    therefore a parameter beside [os.environ], not a function of it. *)
Record interpreter : Type := Interpreter {
  int_max_str_digits : N;
  unicode_isspace : N -> bool;
  unicode_todecimal : N -> option N
}.

(** *** From the bytes of a string to its code points

    The bytes are decoded as UTF-8. A byte that starts no well-formed
    sequence becomes the lone surrogate U+DC00 + byte, which is how
    [os.environ] hands over an undecodable byte ([surrogateescape]);
    decoding resumes at the next byte. Overlong forms, encoded
    surrogates and code points above U+10FFFF are not well formed. *)

Definition continuation (b : N) : bool := ((0x80 <=? b) && (b <=? 0xBF))%N.

Definition surrogate (cp : N) : bool := ((0xD800 <=? cp) && (cp <=? 0xDFFF))%N.

Fixpoint utf8_decode (s : string) : list N :=
  match s with
  | EmptyString => []
  | String c1 r1 =>
      let b1 := N_of_ascii c1 in
      let escape (_ : unit) := (0xDC00 + b1)%N :: utf8_decode r1 in
      if (b1 <? 0x80)%N then b1 :: utf8_decode r1
      else if ((0xC2 <=? b1) && (b1 <=? 0xDF))%N then
        match r1 with
        | String c2 r2 =>
            let b2 := N_of_ascii c2 in
            if continuation b2
            then ((b1 - 0xC0) * 64 + (b2 - 0x80))%N :: utf8_decode r2
            else escape tt
        | _ => escape tt
        end
      else if ((0xE0 <=? b1) && (b1 <=? 0xEF))%N then
        match r1 with
        | String c2 (String c3 r3) =>
            let b2 := N_of_ascii c2 in
            let b3 := N_of_ascii c3 in
            let cp := ((b1 - 0xE0) * 4096 + (b2 - 0x80) * 64 + (b3 - 0x80))%N in
            if continuation b2 && continuation b3
               && (0x800 <=? cp)%N && negb (surrogate cp)
            then cp :: utf8_decode r3
            else escape tt
        | _ => escape tt
        end
      else if ((0xF0 <=? b1) && (b1 <=? 0xF4))%N then
        match r1 with
        | String c2 (String c3 (String c4 r4)) =>
            let b2 := N_of_ascii c2 in
            let b3 := N_of_ascii c3 in
            let b4 := N_of_ascii c4 in
            let cp := ((b1 - 0xF0) * 262144 + (b2 - 0x80) * 4096
                       + (b3 - 0x80) * 64 + (b4 - 0x80))%N in
            if continuation b2 && continuation b3 && continuation b4
               && (0x10000 <=? cp)%N && (cp <=? 0x10FFFF)%N
            then cp :: utf8_decode r4
            else escape tt
        | _ => escape tt
        end
      else escape tt
  end.

(** [PyUnicode_IS_ASCII]: every character is below U+0080. *)
Fixpoint is_ascii (s : string) : bool :=
  match s with
  | EmptyString => true
  | String c rest => (N_of_ascii c <? 0x80)%N && is_ascii rest
  end.

(** [_PyUnicode_TransformDecimalAndSpaceToASCII] on a string that is not
    ASCII: a character below U+007F is kept, a Unicode space becomes a
    blank, a Unicode decimal digit becomes the ASCII digit of its value,
    and at any other character the result ends with a question mark. *)
Fixpoint transform_decimal_and_space (py : interpreter) (cps : list N)
  : string :=
  match cps with
  | [] => EmptyString
  | ch :: rest =>
      if (ch <? 127)%N
      then String (ascii_of_N ch) (transform_decimal_and_space py rest)
      else if unicode_isspace py ch
      then String " " (transform_decimal_and_space py rest)
      else match unicode_todecimal py ch with
           | Some d =>
               String (ascii_of_N (48 + d))
                 (transform_decimal_and_space py rest)
           | None => "?"
           end
  end.

(** *** [PyLong_FromString] in base ten

    On the ASCII text: white space is skipped on both sides, one optional
    sign is read, then a non-empty run of decimal digits in which single
    underscores may separate digits; anything else is refused. *)

(** [Py_ISSPACE]: space, [\t], [\n], [\v], [\f], [\r]. *)
Definition is_space (c : ascii) : bool :=
  let n := N_of_ascii c in
  (((9 <=? n) && (n <=? 13)) || (n =? 32))%N.

Definition digit_value (c : ascii) : option Z :=
  let n := N_of_ascii c in
  if ((48 <=? n) && (n <=? 57))%N then Some (Z.of_N n - 48) else None.

Fixpoint skip_spaces (s : string) : string :=
  match s with
  | String c rest => if is_space c then skip_spaces rest else s
  | EmptyString => s
  end.

(** What the digit scanner saw last. *)
Inductive scanned : Type :=
| Nothing
| Digit
| Underscore.

(** The digit loop: it stops at the first character that is neither a
    digit nor an underscore and returns the value read, the number of
    digits and the unread rest. It fails on an underscore that does not
    follow a digit, and when the run is empty or ends in an underscore. *)
Fixpoint scan_digits (s : string) (prev : scanned) (acc : Z) (digits : N)
  : option (Z * N * string) :=
  let stop := match prev with
              | Digit => Some (acc, digits, s)
              | _ => None
              end in
  match s with
  | EmptyString => stop
  | String c rest =>
      match digit_value c with
      | Some d => scan_digits rest Digit (10 * acc + d) (N.succ digits)
      | None =>
          if Ascii.eqb c "_" then
            match prev with
            | Digit => scan_digits rest Underscore acc digits
            | _ => None
            end
          else stop
      end
  end.

(** The digit limit: a run of more than 640 digits
    ([_PY_LONG_MAX_STR_DIGITS_THRESHOLD]) is refused when a limit is in
    force and the run exceeds it. *)
Definition max_str_digits_threshold : N := 640.

Definition over_limit (limit digits : N) : bool :=
  ((max_str_digits_threshold <? digits) && (0 <? limit) && (limit <? digits))%N.

Definition read_sign (s : string) : Z * string :=
  match s with
  | String "+" rest => (1, rest)
  | String "-" rest => (-1, rest)
  | _ => (1, s)
  end.

Definition long_from_string (limit : N) (s : string) : option Z :=
  let (sign, body) := read_sign (skip_spaces s) in
  match scan_digits body Nothing 0 0 with
  | Some (n, digits, rest) =>
      if over_limit limit digits then None
      else match skip_spaces rest with
           | EmptyString => Some (sign * n)
           | String _ _ => None
           end
  | None => None
  end.

(** [int(s)] on a [str] ([PyLong_FromUnicodeObject]): an ASCII string is
    parsed as it is, any other one after the transformation above. *)
Definition int_of_str (py : interpreter) (s : string) : option Z :=
  long_from_string (int_max_str_digits py)
    (if is_ascii s then s
     else transform_decimal_and_space py (utf8_decode s)).

(** [int(v)]: an [int] is returned as it is, a [str] is parsed. *)
Definition int (py : interpreter) (v : value) : outcome Z :=
  match v with
  | VInt z => Returned z
  | VStr s => match int_of_str py s with
              | Some z => Returned z
              | None => Raised ValueError
              end
  end.

(** [environ.get(key, default)] on [os.environ], whose values are
    strings. *)
Definition environ_get (environ : gmap string string) (key : string)
    (default : value) : value :=
  match environ !! key with
  | Some s => VStr s
  | None => default
  end.

(** *** CPython 3.11 with its defaults

    The limit is 4300 digits and the tables are those of Unicode 14.0:
    the white-space characters, and the decimal digits, which come in
    runs of ten from the digit zero of each script. *)

Definition unicode_spaces : list N :=
  [
   0x0009; 0x000A; 0x000B; 0x000C; 0x000D; 0x001C; 0x001D; 0x001E; 0x001F;
   0x0020; 0x0085; 0x00A0; 0x1680; 0x2000; 0x2001; 0x2002; 0x2003; 0x2004;
   0x2005; 0x2006; 0x2007; 0x2008; 0x2009; 0x200A; 0x2028; 0x2029; 0x202F;
   0x205F; 0x3000
  ]%N.

Definition unicode_digit_zeros : list N :=
  [
   0x0030; 0x0660; 0x06F0; 0x07C0; 0x0966; 0x09E6; 0x0A66; 0x0AE6; 0x0B66;
   0x0BE6; 0x0C66; 0x0CE6; 0x0D66; 0x0DE6; 0x0E50; 0x0ED0; 0x0F20; 0x1040;
   0x1090; 0x17E0; 0x1810; 0x1946; 0x19D0; 0x1A80; 0x1A90; 0x1B50; 0x1BB0;
   0x1C40; 0x1C50; 0xA620; 0xA8D0; 0xA900; 0xA9D0; 0xA9F0; 0xAA50; 0xABF0;
   0xFF10; 0x104A0; 0x10D30; 0x11066; 0x110F0; 0x11136; 0x111D0; 0x112F0;
   0x11450; 0x114D0; 0x11650; 0x116C0; 0x11730; 0x118E0; 0x11950; 0x11C50;
   0x11D50; 0x11DA0; 0x16A60; 0x16AC0; 0x16B50; 0x1D7CE; 0x1D7D8; 0x1D7E2;
   0x1D7EC; 0x1D7F6; 0x1E140; 0x1E2F0; 0x1E950; 0x1FBF0
  ]%N.

Fixpoint decimal_in (zeros : list N) (ch : N) : option N :=
  match zeros with
  | [] => None
  | z :: rest =>
      if ((z <=? ch) && (ch <? z + 10))%N then Some (ch - z)%N
      else decimal_in rest ch
  end.

Definition cpython : interpreter :=
  {| int_max_str_digits := 4300;
     unicode_isspace := fun ch => existsb (N.eqb ch) unicode_spaces;
     unicode_todecimal := decimal_in unicode_digit_zeros |}.

(** *** Calls with their effects

    A call may raise, and it runs in a world it can read and change: the
    process environment and what has been written to standard output. *)
Record world : Type := World {
  os_environ : gmap string string;
  stdout : list string
}.

Definition M (A : Type) : Type := world -> outcome A * world.

Global Instance M_ret : MRet M := fun A a w => (Returned a, w).

Global Instance M_bind : MBind M := fun A B k m w =>
  match m w with
  | (Returned a, w') => k a w'
  | (Raised e, w') => (Raised e, w')
  end.

(** An argument of a call: [None], a [str], or an instance of some class,
    given by what its [__bool__] and its [__format__] do: they may raise
    and may change the world. *)
Inductive object : Type :=
| ONone
| OStr (s : string)
| OInstance (truth : M bool) (text : M string).

(** [if o:] on any object. *)
Definition is_true (o : object) : M bool :=
  match o with
  | ONone => mret false
  | OStr EmptyString => mret false
  | OStr (String _ _) => mret true
  | OInstance truth _ => truth
  end.

(** The text a replacement field [{o}] inserts, [format(o, "")]. *)
Definition format (o : object) : M string :=
  match o with
  | ONone => mret "None"
  | OStr s => mret s
  | OInstance _ text => text
  end.

End Py.

Export Py.

(** ** [src/app.py] *)

Module App.

(** [process(text, audio_path)]:
<<
    if audio_path:
        return f"Received audio file at: {audio_path}"
    if text:
        return f"Echo: {text}"
    return "Please provide text input or upload an audio file."
>> *)
Definition process (text audio_path : option string) : string :=
  if truthy audio_path then "Received audio file at: " +:+ str audio_path
  else if truthy text then "Echo: " +:+ str text
  else "Please provide text input or upload an audio file.".

(** The same body as the interpreter runs it, on arguments of any kind:
    the two tests and the two replacement fields call into the
    arguments and may raise, and the call runs in a world. *)
Definition process_call (text audio_path : object) : M string :=
  audio ← is_true audio_path;
  if audio : bool then
    path ← format audio_path;
    mret ("Received audio file at: " +:+ path)
  else
    given ← is_true text;
    if given : bool then
      echo ← format text;
      mret ("Echo: " +:+ echo)
    else mret "Please provide text input or upload an audio file.".

(** The form [build_ui] lays out: the text box [txt], the audio upload
    [aud] (its value is the path of the uploaded file, or [None]) and
    the output box [out]. *)
Record form : Type := Form {
  txt : option string;
  aud : option string;
  out : string
}.

(** [btn.click(process, inputs=[txt, aud], outputs=out)]: a click calls
    the handler on the values of the two inputs and shows the result in
    the output box. *)
Definition click (fn : option string -> option string -> string) (f : form)
  : form :=
  {| txt := txt f; aud := aud f; out := fn (txt f) (aud f) |}.

(** The object [build_ui] returns, reduced to its title and the handler
    of its button. *)
Record blocks : Type := Blocks {
  title : string;
  on_click : form -> form
}.

Definition build_ui : blocks :=
  {| title := "Muhtasim-Baby"; on_click := click process |}.

(** A call [demo.launch(server_name=..., server_port=...)]. *)
Record launch : Type := Launch {
  app : blocks;
  server_name : string;
  server_port : Z
}.

(** [int(os.environ.get("PORT", os.environ.get("HF_SPACE_PORT", 7860)))] *)
Definition resolve_port (py : interpreter) (environ : gmap string string)
  : outcome Z :=
  Py.int py (environ_get environ "PORT"
               (environ_get environ "HF_SPACE_PORT" (VInt 7860))).

(** The start-up block: build the form, resolve the port, launch. The
    result is the launch the script performs, or the exception that
    ended it before. *)
Definition main (py : interpreter) (environ : gmap string string)
  : outcome launch :=
  let demo := build_ui in
  port ← resolve_port py environ;
  mret {| app := demo; server_name := "0.0.0.0"; server_port := port |}.

End App.

(** ** [src/web/Space.py] *)

Module Space.

(** The double quote and the line feed, which the literals below do not
    contain. *)
Definition dq : string := String (ascii_of_N 34) EmptyString.
Definition nl : string := String (ascii_of_N 10) EmptyString.

(** [q s] is [s] between double quotes. *)
Definition q (s : string) : string := dq +:+ s +:+ dq.

(** The lines of the triple-quoted literal bound to [html_content]. The
    literal opens with a line feed and ends with the indentation of the
    closing quotes. *)
Definition html_lines : list string :=
  [
    "";
    "    <!DOCTYPE html>";
    "    <html>";
    "    <head>";
    "        <title>Conscious AI Learning System</title>";
    "        <meta name=" +:+ q "viewport" +:+ " content=" +:+ q "width=device-width, initial-scale=1.0" +:+ ">";
    "        <style>";
    "            body {";
    "                margin: 0;";
    "                padding: 20px;";
    "                font-family: -apple-system, BlinkMacSystemFont, 'Segoe UI', sans-serif;";
    "                background: linear-gradient(135deg, #667eea 0%, #764ba2 100%);";
    "                color: white;";
    "                min-height: 100vh;";
    "            }";
    "            .container {";
    "                max-width: 800px;";
    "                margin: 0 auto;";
    "                text-align: center;";
    "            }";
    "            .launch-button {";
    "                display: inline-block;";
    "                padding: 20px 40px;";
    "                background: rgba(255, 255, 255, 0.2);";
    "                border: 2px solid rgba(255, 255, 255, 0.3);";
    "                border-radius: 12px;";
    "                color: white;";
    "                text-decoration: none;";
    "                font-size: 18px;";
    "                font-weight: 600;";
    "                margin: 20px;";
    "                transition: all 0.3s ease;";
    "            }";
    "            .launch-button:hover {";
    "                background: rgba(255, 255, 255, 0.3);";
    "                transform: translateY(-2px);";
    "            }";
    "            .description {";
    "                margin: 20px 0;";
    "                padding: 20px;";
    "                background: rgba(0, 0, 0, 0.2);";
    "                border-radius: 12px;";
    "                text-align: left;";
    "            }";
    "            .requirements {";
    "                background: rgba(255, 255, 255, 0.1);";
    "                padding: 15px;";
    "                border-radius: 8px;";
    "                margin: 20px 0;";
    "                text-align: left;";
    "            }";
    "            .emoji {";
    "                font-size: 24px;";
    "                margin-bottom: 10px;";
    "            }";
    "        </style>";
    "    </head>";
    "    <body>";
    "        <div class=" +:+ q "container" +:+ ">";
    "            <h1>🤖 Conscious AI Learning System</h1>";
    "";
    "            <div class=" +:+ q "description" +:+ ">";
    "                <div class=" +:+ q "emoji" +:+ ">🧠</div>";
    "                <h3>About This Project</h3>";
    "                <p>A virtual AI being that learns, thinks, feels, and creates from scratch. Starting with zero knowledge, the AI develops through curiosity-driven interaction with its 3D environment.</p>";
    "";
    "                <div class=" +:+ q "emoji" +:+ ">🌟</div>";
    "                <h3>Key Features</h3>";
    "                <ul style=" +:+ q "text-align: left;" +:+ ">";
    "                    <li>🧠 Authentic learning from scratch (zero knowledge)</li>";
    "                    <li>💬 Language acquisition through interaction</li>";
    "                    <li>😊 Emergent emotions from neural dynamics</li>";
    "                    <li>🔍 Curiosity-driven exploration</li>";
    "                    <li>🧠 Human-like memory with consolidation</li>";
    "                    <li>👁 Real-time 3D visualization</li>";
    "                </ul>";
    "";
    "                <div class=" +:+ q "emoji" +:+ ">🎮</div>";
    "                <h3>How to Use</h3>";
    "                <ol style=" +:+ q "text-align: left;" +:+ ">";
    "                    <li>Watch the AI explore randomly at first</li>";
    "                    <li>Talk to the AI (it won't understand initially)</li>";
    "                    <li>Name objects when the AI is near them</li>";
    "                    <li>Add new objects to create learning experiences</li>";
    "                    <li>Monitor AI development in real-time</li>";
    "                </ol>";
    "            </div>";
    "";
    "            <div class=" +:+ q "requirements" +:+ ">";
    "                <h3>⚠️ Requirements</h3>";
    "                <ul style=" +:+ q "text-align: left;" +:+ ">";
    "                    <li>Modern browser (Chrome, Firefox, Safari)</li>";
    "                    <li>WebGL support for 3D rendering</li>";
    "                    <li>4GB+ RAM recommended</li>";
    "                    <li>Works best on desktop, mobile supported</li>";
    "                </ul>";
    "            </div>";
    "";
    "            <a href=" +:+ q "./app/" +:+ " class=" +:+ q "launch-button" +:+ ">";
    "                🚀 Launch Conscious AI";
    "            </a>";
    "";
    "            <div style=" +:+ q "margin-top: 30px; opacity: 0.8; font-size: 14px;" +:+ ">";
    "                <p><strong>Note:</strong> This system requires significant computational resources. Performance may vary based on your device capabilities.</p>";
    "            </div>";
    "        </div>";
    "";
    "        <script>";
    "            // Check if WebGL is supported";
    "            function checkWebGLSupport() {";
    "                const canvas = document.createElement('canvas');";
    "                const gl = canvas.getContext('webgl') || canvas.getContext('experimental-webgl');";
    "                return !!gl;";
    "            }";
    "";
    "            if (!checkWebGLSupport()) {";
    "                document.querySelector('.container').innerHTML += `";
    "                    <div style=" +:+ q "background: rgba(255, 0, 0, 0.1); padding: 20px; border-radius: 8px; margin: 20px 0;" +:+ ">";
    "                        <h3>⚠️ WebGL Not Supported</h3>";
    "                        <p>Your browser doesn't support WebGL, which is required for 3D rendering and AI computation.</p>";
    "                        <p>Please try using a modern browser like Chrome, Firefox, or Safari.</p>";
    "                    </div>";
    "                `;";
    "            }";
    "        </script>";
    "    </body>";
    "    </html>";
    "    "
  ].

Definition html_content : string := String.concat nl html_lines.

(** The widget [gr.HTML(value=..., label=..., visible=...)], by the
    arguments it is built from. *)
Record html : Type := HTML {
  value : string;
  label : string;
  visible : bool
}.

(** [create_interface()]: it has no parameter; the call binds the literal
    and returns the widget. *)
Definition create_interface : M html :=
  mret {| value := html_content;
          label := "Conscious AI Learning System";
          visible := false |}.

End Space.

Import App.

(** ** Vocabulary of the statements *)

(** A form field is empty or absent when it holds [None] or the empty
    string. *)
Definition empty_or_absent (v : option string) : Prop :=
  v = None \/ v = Some "".

Definition audio_message (audio_path : string) : string :=
  "Received audio file at: " +:+ audio_path.

Definition echo_message (text : string) : string :=
  "Echo: " +:+ text.

Definition fallback_message : string :=
  "Please provide text input or upload an audio file.".

(** The object a form field hands to the handler. *)
Definition field (v : option string) : object :=
  match v with
  | None => ONone
  | Some s => OStr s
  end.

(** The launch the start-up block performs once the port is known. *)
Definition launched_on (port : Z) : outcome launch :=
  Returned {| app := build_ui; server_name := "0.0.0.0"; server_port := port |}.

(** A string made of decimal digits only, and the number it denotes when
    read from the left with [acc] already read. *)
Fixpoint all_digits (s : string) : bool :=
  match s with
  | EmptyString => true
  | String c rest =>
      match digit_value c with
      | Some _ => all_digits rest
      | None => false
      end
  end.

Fixpoint decimal (acc : Z) (s : string) : Z :=
  match s with
  | EmptyString => acc
  | String c rest => decimal (10 * acc + (Z.of_N (N_of_ascii c) - 48)) rest
  end.

(** A string made of ASCII white space only. *)
Fixpoint all_spaces (s : string) : bool :=
  match s with
  | EmptyString => true
  | String c rest => is_space c && all_spaces rest
  end.

(** The Adler-32 checksum of the bytes of a string, to tell one document
    from another. *)
Definition adler32_step (sums : N * N) (c : ascii) : N * N :=
  let a := ((fst sums + N_of_ascii c) mod 65521)%N in
  (a, ((snd sums + a) mod 65521)%N).

Fixpoint adler32_sums (sums : N * N) (s : string) : N * N :=
  match s with
  | EmptyString => sums
  | String c rest => adler32_sums (adler32_step sums c) rest
  end.

Definition adler32 (s : string) : N :=
  let sums := adler32_sums (1, 0)%N s in
  (snd sums * 65536 + fst sums)%N.

(** [ends_with s tail]: the last characters of [s] are those of [tail]. *)
Definition ends_with (s tail : string) : bool :=
  String.eqb
    (String.substring (String.length s - String.length tail)
       (String.length tail) s)
    tail.

(** ** The input router *)

Section Router.

Implicit Types (text audio_path : option string) (s t a : string).

Lemma truthy_str s : truthy (Some s) = true <-> s <> "".
Proof. destruct s; simpl; split; congruence. Qed.

Lemma truthy_empty_or_absent v : empty_or_absent v -> truthy v = false.
Proof. intros [-> | ->]; reflexivity. Qed.

Lemma process_truthy_audio text audio_path :
  truthy audio_path = true ->
  process text audio_path = audio_message (str audio_path).
Proof. intros H. unfold process. rewrite H. reflexivity. Qed.

Lemma process_falsy_audio text audio_path :
  truthy audio_path = false ->
  process text audio_path =
    if truthy text then echo_message (str text) else fallback_message.
Proof. intros H. unfold process. rewrite H. reflexivity. Qed.

(** The two messages never coincide: they differ at their first
    character. *)
Lemma audio_message_not_echo a t : audio_message a <> echo_message t.
Proof. unfold audio_message, echo_message. simpl. intros H. inversion H. Qed.

(** C1: whenever the audio path is a non-empty string, whatever the text
    is, the router answers "Received audio file at: " followed by the
    path. *)
Theorem process_audio text a :
  a <> "" -> process text (Some a) = "Received audio file at: " +:+ a.
Proof.
  intros Ha. apply truthy_str in Ha.
  rewrite (process_truthy_audio _ _ Ha). reflexivity.
Qed.

Lemma process_audio_witness :
  process None (Some "/tmp/rec.wav") = "Received audio file at: /tmp/rec.wav".
Proof. apply (process_audio None "/tmp/rec.wav"). discriminate. Defined.

(** C2: when the audio path is empty or absent and the text is a non-empty
    string, the router answers "Echo: " followed by the text. *)
Theorem process_text t audio_path :
  empty_or_absent audio_path -> t <> "" ->
  process (Some t) audio_path = "Echo: " +:+ t.
Proof.
  intros Ha Ht. apply truthy_empty_or_absent in Ha. apply truthy_str in Ht.
  rewrite (process_falsy_audio _ _ Ha), Ht. reflexivity.
Qed.

Lemma process_text_witness : process (Some "hello") None = "Echo: hello".
Proof.
  apply (process_text "hello" None); [left; reflexivity | discriminate].
Defined.

(** C3: when both the audio path and the text are empty or absent, the
    router answers the fixed fallback sentence. *)
Theorem process_fallback text audio_path :
  empty_or_absent audio_path -> empty_or_absent text ->
  process text audio_path
  = "Please provide text input or upload an audio file.".
Proof.
  intros Ha Ht. apply truthy_empty_or_absent in Ha, Ht.
  rewrite (process_falsy_audio _ _ Ha), Ht. reflexivity.
Qed.

Lemma process_fallback_witness :
  process (Some "") (Some "")
  = "Please provide text input or upload an audio file.".
Proof.
  apply (process_fallback (Some "") (Some "")); right; reflexivity.
Defined.

(** C4: when both the audio path and the text are non-empty strings, the
    answer is that of the audio branch and not the echo of the text. *)
Theorem audio_precedes_text t a :
  t <> "" -> a <> "" ->
  process (Some t) (Some a) = "Received audio file at: " +:+ a
  /\ process (Some t) (Some a) <> "Echo: " +:+ t.
Proof.
  intros _ Ha. apply truthy_str in Ha.
  rewrite (process_truthy_audio _ _ Ha). split; [reflexivity |].
  apply audio_message_not_echo.
Qed.

Lemma audio_precedes_text_witness :
  process (Some "hi") (Some "/tmp/a.wav") = "Received audio file at: /tmp/a.wav"
  /\ process (Some "hi") (Some "/tmp/a.wav") <> "Echo: hi".
Proof. apply (audio_precedes_text "hi" "/tmp/a.wav"); discriminate. Defined.

End Router.

(** ** The router as a call *)

Section RouterCalls.

Implicit Types (text audio_path v : option string) (w : world).

Lemma is_true_field v w : is_true (field v) w = (Returned (truthy v), w).
Proof. destruct v as [[| c s] |]; reflexivity. Qed.

Lemma format_field v w : format (field v) w = (Returned (str v), w).
Proof. destruct v as [s |]; reflexivity. Qed.

(** On the values of form fields the call returns the answer of the
    router and leaves the world as it found it. *)
Lemma process_call_field text audio_path w :
  process_call (field text) (field audio_path) w
  = (Returned (process text audio_path), w).
Proof.
  unfold process_call, process, mbind, M_bind.
  rewrite is_true_field. destruct (truthy audio_path).
  - rewrite format_field. reflexivity.
  - rewrite is_true_field. destruct (truthy text); [| reflexivity].
    rewrite format_field. reflexivity.
Qed.

(** On other arguments the call does raise, and does leave another world
    behind: what the [__bool__] of the audio argument raises comes out of
    the call, and when it answers false what it did to the world stays. *)
Lemma process_call_instance (truth : M bool) (shown : M string) w w1 :
  (forall e, truth w = (Raised e, w1) ->
     process_call ONone (OInstance truth shown) w = (Raised e, w1))
  /\ (truth w = (Returned false, w1) ->
      process_call ONone (OInstance truth shown) w
      = (Returned "Please provide text input or upload an audio file.", w1)).
Proof.
  unfold process_call, mbind, M_bind. simpl.
  split; [intros e H | intros H]; rewrite H; reflexivity.
Qed.

(** C5: the router is total on its inputs. Called on the values of the two
    form fields, empty and absent ones included, it returns a string, the
    answer of the routing rule, and ends with no exception. *)
Theorem process_total text audio_path w :
  fst (process_call (field text) (field audio_path) w)
  = Returned (process text audio_path)
  /\ forall e, fst (process_call (field text) (field audio_path) w) <> Raised e.
Proof.
  rewrite process_call_field. simpl. split; [reflexivity | discriminate].
Qed.

(** C8: the router is a function of its two arguments alone. A call
    leaves the world (the environment, the standard output) as it found
    it, its result is the same in every world, and a second call with the
    same arguments, made after the first, returns what the first
    returned. *)
Theorem process_deterministic text audio_path w w' :
  snd (process_call (field text) (field audio_path) w) = w
  /\ fst (process_call (field text) (field audio_path) w)
     = fst (process_call (field text) (field audio_path) w')
  /\ (first ← process_call (field text) (field audio_path);
      second ← process_call (field text) (field audio_path);
      mret (first, second)) w
     = (Returned (process text audio_path, process text audio_path), w).
Proof.
  split; [rewrite process_call_field; reflexivity |].
  split; [rewrite !process_call_field; reflexivity |].
  unfold mbind, M_bind. rewrite process_call_field. cbv beta iota.
  rewrite process_call_field. reflexivity.
Qed.

End RouterCalls.

(** ** Port resolution at start-up *)

Section Port.

Implicit Types (py : interpreter) (environ : gmap string string).
Implicit Types (v p h : string).

Lemma environ_get_set environ key v default :
  environ !! key = Some v -> environ_get environ key default = VStr v.
Proof. intros H. unfold environ_get. rewrite H. reflexivity. Qed.

Lemma environ_get_unset environ key default :
  environ !! key = None -> environ_get environ key default = default.
Proof. intros H. unfold environ_get. rewrite H. reflexivity. Qed.

Lemma int_of_str_empty py : int_of_str py "" = None.
Proof. reflexivity. Qed.

(** [int] on a few strings, as CPython 3.11 reads them: surrounding
    blanks, a sign, leading zeros and single underscores between digits
    are accepted, and so are the digits of other scripts and a no-break
    space;
    a blank inside, a stray underscore, a prefix, a letter or a
    superscript digit is not. *)
Lemma int_of_str_samples :
  map (int_of_str cpython)
    [" 12 "; "+7"; "-0_1"; "007"; "８０８０"; "٣٤"; " 8080"; "8０"]
  = [Some 12; Some 7; Some (-1); Some 7; Some 8080; Some 34; Some 8080;
     Some 80]
  /\ map (int_of_str cpython)
       ["1__2"; "_1"; "1_"; "0x10"; "12a"; "- 1"; "+"; "8 0"; "²"; "1.0"]
     = [None; None; None; None; None; None; None; None; None; None].
Proof. split; vm_compute; reflexivity. Qed.

Lemma digit_value_char c d :
  digit_value c = Some d ->
  d = Z.of_N (N_of_ascii c) - 48 /\ is_space c = false
  /\ (N_of_ascii c <? 0x80)%N = true
  /\ forall rest, read_sign (String c rest) = (1, String c rest).
Proof.
  destruct c as [[] [] [] [] [] [] [] []]; vm_compute; intros H;
    try discriminate H; injection H as <-; repeat split.
Qed.

Lemma scan_digits_all_digits v :
  forall prev acc n,
    all_digits v = true -> v <> "" \/ prev = Digit ->
    scan_digits v prev acc n
    = Some (decimal acc v, (n + N.of_nat (String.length v))%N, "").
Proof.
  induction v as [| c rest IH]; intros prev acc n Hall Hne.
  - destruct Hne as [Hne | ->]; [congruence |].
    simpl. rewrite N.add_0_r. reflexivity.
  - simpl in Hall |- *.
    destruct (digit_value c) as [d |] eqn:Hd; [| discriminate].
    destruct (digit_value_char _ _ Hd) as (-> & _ & _).
    rewrite (IH Digit) by auto. do 3 f_equal. lia.
Qed.

Lemma all_digits_ascii v : all_digits v = true -> is_ascii v = true.
Proof.
  induction v as [| c rest IH]; simpl; [reflexivity |].
  destruct (digit_value c) as [d |] eqn:Hd; [| discriminate].
  destruct (digit_value_char _ _ Hd) as (_ & _ & -> & _). exact IH.
Qed.

(** A plain run of decimal digits that the digit limit lets through is
    read as the number it denotes. *)
Lemma long_from_string_digits limit v :
  v <> "" -> all_digits v = true ->
  over_limit limit (N.of_nat (String.length v)) = false ->
  long_from_string limit v = Some (decimal 0 v).
Proof.
  intros Hne Hall Hlen. unfold long_from_string.
  destruct v as [| c rest]; [congruence |].
  assert (Hc : exists d, digit_value c = Some d).
  { simpl in Hall. destruct (digit_value c); [eauto | discriminate]. }
  destruct Hc as [d Hd].
  destruct (digit_value_char _ _ Hd) as (_ & Hsp & _ & Hsign).
  simpl skip_spaces. rewrite Hsp, Hsign.
  rewrite scan_digits_all_digits by auto.
  rewrite N.add_0_l, Hlen. simpl. f_equal; lia.
Qed.

Lemma int_of_str_digits py v :
  v <> "" -> all_digits v = true ->
  over_limit (int_max_str_digits py) (N.of_nat (String.length v)) = false ->
  int_of_str py v = Some (decimal 0 v).
Proof.
  intros Hne Hall Hlen. unfold int_of_str.
  rewrite (all_digits_ascii _ Hall).
  apply long_from_string_digits; assumption.
Qed.

Lemma int_digits py v :
  v <> "" -> all_digits v = true ->
  over_limit (int_max_str_digits py) (N.of_nat (String.length v)) = false ->
  Py.int py (VStr v) = Returned (decimal 0 v).
Proof.
  intros Hne Hall Hlen. unfold Py.int.
  rewrite int_of_str_digits by assumption. reflexivity.
Qed.

Lemma int_malformed py v :
  int_of_str py v = None -> Py.int py (VStr v) = Raised ValueError.
Proof. intros H. simpl. rewrite H. reflexivity. Qed.

(** The order in which the two variables and the default are tried. *)
Lemma resolve_port_cases py environ :
  resolve_port py environ =
    match environ !! "PORT" with
    | Some p => Py.int py (VStr p)
    | None =>
        match environ !! "HF_SPACE_PORT" with
        | Some h => Py.int py (VStr h)
        | None => Returned 7860
        end
    end.
Proof.
  unfold resolve_port, environ_get.
  destruct (environ !! "PORT"); [reflexivity |].
  destruct (environ !! "HF_SPACE_PORT"); reflexivity.
Qed.

(** The server is launched on the resolved port, and only if there is
    one. *)
Lemma main_resolved py environ port :
  resolve_port py environ = Returned port -> main py environ = launched_on port.
Proof. intros H. unfold main. rewrite H. reflexivity. Qed.

Lemma main_raised py environ e :
  resolve_port py environ = Raised e -> main py environ = Raised e.
Proof. intros H. unfold main. rewrite H. reflexivity. Qed.

(** C6: the port is the integer read from [PORT] when that variable is
    set, else the integer read from [HF_SPACE_PORT] when that one is set,
    else 7860; so the server is launched on 9000 under [PORT=9000], on
    8080 under [HF_SPACE_PORT=8080] without [PORT], and on 7860 when
    neither is set. This holds under every interpreter configuration. *)
Theorem port_resolution py environ :
  resolve_port py environ =
    match environ !! "PORT" with
    | Some p => Py.int py (VStr p)
    | None =>
        match environ !! "HF_SPACE_PORT" with
        | Some h => Py.int py (VStr h)
        | None => Returned 7860
        end
    end
  /\ (environ !! "PORT" = Some "9000" -> main py environ = launched_on 9000)
  /\ (environ !! "PORT" = None -> environ !! "HF_SPACE_PORT" = Some "8080" ->
      main py environ = launched_on 8080)
  /\ (environ !! "PORT" = None -> environ !! "HF_SPACE_PORT" = None ->
      main py environ = launched_on 7860).
Proof.
  split; [apply resolve_port_cases |].
  repeat split.
  - intros Hp. apply main_resolved. rewrite resolve_port_cases, Hp.
    apply (int_digits py "9000"); [discriminate | reflexivity | reflexivity].
  - intros Hp Hh. apply main_resolved. rewrite resolve_port_cases, Hp, Hh.
    apply (int_digits py "8080"); [discriminate | reflexivity | reflexivity].
  - intros Hp Hh. apply main_resolved. rewrite resolve_port_cases, Hp, Hh.
    reflexivity.
Qed.

Lemma port_resolution_witness :
  main cpython {[ "PORT" := "9000"; "HF_SPACE_PORT" := "8080" ]} = launched_on 9000
  /\ main cpython {[ "HF_SPACE_PORT" := "8080" ]} = launched_on 8080
  /\ main cpython ∅ = launched_on 7860.
Proof.
  split; [| split].
  - apply (port_resolution cpython
             {[ "PORT" := "9000"; "HF_SPACE_PORT" := "8080" ]}).
    vm_compute. reflexivity.
  - apply (port_resolution cpython {[ "HF_SPACE_PORT" := "8080" ]});
      vm_compute; reflexivity.
  - apply (port_resolution cpython ∅); vm_compute; reflexivity.
Defined.

(** C7: when the variable that is read, [PORT], or [HF_SPACE_PORT] when
    [PORT] is unset, holds a string that [int] does not accept, the
    resolution raises [ValueError]; the start-up block ends with that
    exception and launches nothing, on no other port either. *)
Theorem malformed_port_is_fatal py environ v :
  environ !! "PORT" = Some v
  \/ (environ !! "PORT" = None /\ environ !! "HF_SPACE_PORT" = Some v) ->
  int_of_str py v = None ->
  resolve_port py environ = Raised ValueError
  /\ main py environ = Raised ValueError
  /\ forall l, main py environ <> Returned l.
Proof.
  intros Hv Hbad.
  assert (Hr : resolve_port py environ = Raised ValueError).
  { rewrite resolve_port_cases.
    destruct Hv as [-> | [-> ->]]; apply int_malformed, Hbad. }
  split; [exact Hr |].
  rewrite (main_raised _ _ _ Hr). split; [reflexivity | discriminate].
Qed.

Lemma malformed_port_is_fatal_witness :
  main cpython {[ "PORT" := "eighty"; "HF_SPACE_PORT" := "8080" ]}
  = Raised ValueError
  /\ main cpython {[ "HF_SPACE_PORT" := "80 80" ]} = Raised ValueError.
Proof.
  split.
  - apply (malformed_port_is_fatal cpython
             {[ "PORT" := "eighty"; "HF_SPACE_PORT" := "8080" ]} "eighty").
    + left. vm_compute. reflexivity.
    + vm_compute. reflexivity.
  - apply (malformed_port_is_fatal cpython
             {[ "HF_SPACE_PORT" := "80 80" ]} "80 80").
    + right. split; vm_compute; reflexivity.
    + vm_compute. reflexivity.
Defined.

(** C10: a [PORT] that is set to the empty string is read, not skipped:
    [int] refuses it and the start-up block ends with [ValueError],
    whatever [HF_SPACE_PORT] holds. The other two sources are used once
    [PORT] is removed from the environment. *)
Theorem empty_port_is_fatal py environ :
  environ !! "PORT" = Some "" ->
  resolve_port py environ = Raised ValueError
  /\ main py environ = Raised ValueError
  /\ resolve_port py (delete "PORT" environ) =
       match environ !! "HF_SPACE_PORT" with
       | Some h => Py.int py (VStr h)
       | None => Returned 7860
       end.
Proof.
  intros Hp.
  assert (Hr : resolve_port py environ = Raised ValueError).
  { rewrite resolve_port_cases, Hp. reflexivity. }
  split; [exact Hr |]. split; [apply main_raised, Hr |].
  rewrite resolve_port_cases, lookup_delete_eq, lookup_delete_ne by done.
  reflexivity.
Qed.

Lemma empty_port_is_fatal_witness :
  resolve_port cpython {[ "PORT" := ""; "HF_SPACE_PORT" := "8080" ]}
  = Raised ValueError
  /\ main cpython {[ "PORT" := ""; "HF_SPACE_PORT" := "8080" ]}
     = Raised ValueError
  /\ resolve_port cpython
       (delete "PORT" {[ "PORT" := ""; "HF_SPACE_PORT" := "8080" ]})
     = Returned 8080.
Proof.
  assert (Hp : ({[ "PORT" := ""; "HF_SPACE_PORT" := "8080" ]}
                  : gmap string string) !! "PORT" = Some "")
    by (vm_compute; reflexivity).
  destruct (empty_port_is_fatal cpython _ Hp) as (Hr & Hm & Hd).
  split; [exact Hr |]. split; [exact Hm |].
  rewrite Hd. vm_compute. reflexivity.
Defined.

End Port.

(** ** The static info page *)

Section InfoPage.

(** The document has the size of the literal in the script. *)
Lemma html_content_length :
  N.of_nat (String.length Space.html_content) = 5127%N.
Proof. vm_compute. reflexivity. Qed.

(** The widget the call returns. *)
Lemma create_interface_run w :
  Space.create_interface w
  = (Returned (Space.HTML Space.html_content "Conscious AI Learning System"
                 false), w).
Proof. reflexivity. Qed.

(** C9: building the info page takes no input and reads no state: in
    every world the call returns the same widget and changes nothing.
    The content of the widget is the HTML document of the script: 5127
    bytes with the Adler-32 checksum of the literal, from the line of the
    document type to the closing tag of the root element. *)
Theorem create_interface_constant (w w' : world) :
  exists page,
    Space.create_interface w = (Returned page, w)
    /\ Space.create_interface w' = (Returned page, w')
    /\ N.of_nat (String.length (Space.value page)) = 5127%N
    /\ adler32 (Space.value page) = 645094959%N
    /\ String.prefix (Space.nl +:+ "    <!DOCTYPE html>" +:+ Space.nl)
         (Space.value page) = true
    /\ ends_with (Space.value page) ("    </html>" +:+ Space.nl +:+ "    ")
       = true.
Proof.
  eexists. split; [apply create_interface_run |].
  split; [apply create_interface_run |].
  repeat split; vm_compute; reflexivity.
Qed.

End InfoPage.

(** ** What the answer of the router tells about its inputs *)

Section RouterAnswers.

Implicit Types (text audio_path v : option string) (s t a : string).

Lemma truthy_false v : truthy v = false <-> empty_or_absent v.
Proof.
  split; [| apply truthy_empty_or_absent].
  destruct v as [[| c r] |]; simpl; intros H;
    [right; reflexivity | discriminate | left; reflexivity].
Qed.

Lemma truthy_true v : truthy v = true <-> exists s, v = Some s /\ s <> "".
Proof.
  split.
  - destruct v as [s |]; [| discriminate]. intros H.
    exists s. split; [reflexivity | apply truthy_str, H].
  - intros (s & -> & Hs). apply truthy_str, Hs.
Qed.

Lemma audio_message_not_fallback a : audio_message a <> fallback_message.
Proof. unfold audio_message, fallback_message. simpl. intros H. inversion H. Qed.

Lemma echo_message_not_fallback t : echo_message t <> fallback_message.
Proof. unfold echo_message, fallback_message. simpl. intros H. inversion H. Qed.

Lemma audio_message_inj a a' : audio_message a = audio_message a' -> a = a'.
Proof. unfold audio_message. intros H. injection H as H. exact H. Qed.

Lemma echo_message_inj t t' : echo_message t = echo_message t' -> t = t'.
Proof. unfold echo_message. intros H. injection H as H. exact H. Qed.

(** The three return statements, with the condition under which each one
    is reached. *)
Lemma process_branches text audio_path :
  (truthy audio_path = true
   /\ process text audio_path = audio_message (str audio_path))
  \/ (truthy audio_path = false /\ truthy text = true
      /\ process text audio_path = echo_message (str text))
  \/ (truthy audio_path = false /\ truthy text = false
      /\ process text audio_path = fallback_message).
Proof.
  unfold process.
  destruct (truthy audio_path); [left; split; reflexivity | right].
  destruct (truthy text); [left | right]; repeat split; reflexivity.
Qed.

(** X1: the fallback sentence is returned only when both the audio path
    and the text are empty or absent. *)
Theorem process_fallback_iff text audio_path :
  process text audio_path = fallback_message
  <-> empty_or_absent audio_path /\ empty_or_absent text.
Proof.
  rewrite <- !truthy_false.
  destruct (process_branches text audio_path)
    as [(Ha & ->) | [(Ha & Ht & ->) | (Ha & Ht & ->)]].
  - split; [intros H; destruct (audio_message_not_fallback _ H) |].
    intros [Ha' _]. congruence.
  - split; [intros H; destruct (echo_message_not_fallback _ H) |].
    intros [_ Ht']. congruence.
  - split; [intros _; split; assumption | reflexivity].
Qed.

(** X2: the answer is "Received audio file at: " followed by [s] exactly
    when the audio path is the non-empty string [s]; the path can be read
    back from the answer. *)
Theorem process_audio_iff text audio_path s :
  process text audio_path = "Received audio file at: " +:+ s
  <-> audio_path = Some s /\ s <> "".
Proof.
  fold (audio_message s).
  destruct (process_branches text audio_path)
    as [(Ha & ->) | [(Ha & Ht & ->) | (Ha & Ht & ->)]].
  - apply truthy_true in Ha as (a & -> & Hne). simpl. split.
    + intros H. apply audio_message_inj in H as ->. split; [reflexivity | exact Hne].
    + intros [[= ->] _]. reflexivity.
  - split.
    + intros H. symmetry in H. destruct (audio_message_not_echo _ _ H).
    + intros [-> Hs]. apply truthy_str in Hs. congruence.
  - split.
    + intros H. symmetry in H. destruct (audio_message_not_fallback _ H).
    + intros [-> Hs]. apply truthy_str in Hs. congruence.
Qed.

(** X3: the answer is "Echo: " followed by [s] exactly when the audio path
    is empty or absent and the text is the non-empty string [s]. *)
Theorem process_echo_iff text audio_path s :
  process text audio_path = "Echo: " +:+ s
  <-> empty_or_absent audio_path /\ text = Some s /\ s <> "".
Proof.
  fold (echo_message s). rewrite <- truthy_false.
  destruct (process_branches text audio_path)
    as [(Ha & ->) | [(Ha & Ht & ->) | (Ha & Ht & ->)]].
  - split.
    + intros H. destruct (audio_message_not_echo _ _ H).
    + intros [Ha' _]. congruence.
  - apply truthy_true in Ht as (t & -> & Hne). simpl. split.
    + intros H. apply echo_message_inj in H as ->. repeat split; assumption.
    + intros (_ & [= ->] & _). reflexivity.
  - split.
    + intros H. symmetry in H. destruct (echo_message_not_fallback _ H).
    + intros (_ & -> & Hs). apply truthy_str in Hs. congruence.
Qed.

(** X4: the router never answers the empty string; its shortest answer is
    the echo of a one-character text, seven characters long. *)
Theorem process_length text audio_path :
  (7 <= String.length (process text audio_path))%nat.
Proof.
  destruct (process_branches text audio_path)
    as [(Ha & ->) | [(Ha & Ht & ->) | (Ha & Ht & ->)]].
  - apply truthy_true in Ha as (a & -> & Hne). simpl. lia.
  - apply truthy_true in Ht as ([| c t] & -> & Hne); [congruence |].
    simpl. lia.
  - simpl. lia.
Qed.

Lemma process_default text audio_path :
  process text audio_path
  = process (Some (default "" text)) (Some (default "" audio_path)).
Proof.
  destruct text as [t |], audio_path as [a |]; reflexivity.
Qed.

(** X5: an absent field counts as an empty one, in either position: two
    submissions whose fields hold the same characters, [None] read as the
    empty string, get the same answer. *)
Theorem process_none_empty text text' audio_path audio_path' :
  default "" text = default "" text' ->
  default "" audio_path = default "" audio_path' ->
  process text audio_path = process text' audio_path'.
Proof.
  intros Ht Ha.
  rewrite (process_default text), (process_default text'), Ht, Ha.
  reflexivity.
Qed.

Lemma process_none_empty_witness :
  process None (Some "") = process (Some "") None.
Proof. apply process_none_empty; reflexivity. Defined.

End RouterAnswers.

(** ** What the start-up block reads, and what it hands to [launch] *)

Section PortAnswers.

Implicit Types (py : interpreter) (environ : gmap string string).
Implicit Types (v p h k : string).

Lemma int_returned_iff py v z :
  Py.int py (VStr v) = Returned z <-> int_of_str py v = Some z.
Proof. simpl. destruct (int_of_str py v); split; congruence. Qed.


(** Under one interpreter the resolution depends on the environment
    through [PORT], and through [HF_SPACE_PORT] when [PORT] is unset. *)
Lemma resolve_port_ext py environ environ' :
  environ !! "PORT" = environ' !! "PORT" ->
  (environ !! "PORT" = None ->
   environ !! "HF_SPACE_PORT" = environ' !! "HF_SPACE_PORT") ->
  resolve_port py environ = resolve_port py environ'.
Proof.
  intros Hp Hh. rewrite !resolve_port_cases, <- Hp.
  destruct (environ !! "PORT"); [reflexivity |].
  rewrite <- Hh by reflexivity. reflexivity.
Qed.

Lemma main_resolve_port py environ environ' :
  resolve_port py environ = resolve_port py environ' ->
  main py environ = main py environ'.
Proof. intros H. unfold main. rewrite H. reflexivity. Qed.

(** X6: whenever the start-up block launches, it launches the form of
    [build_ui] on all interfaces, on the port it resolved; it performs no
    other launch. *)
Theorem main_returned py environ l :
  main py environ = Returned l ->
  app l = build_ui /\ server_name l = "0.0.0.0"
  /\ resolve_port py environ = Returned (server_port l).
Proof.
  unfold main. destruct (resolve_port py environ) as [port | e]; simpl.
  - intros [= <-]. repeat split.
  - discriminate.
Qed.

Lemma main_returned_witness :
  server_name (Launch build_ui "0.0.0.0" 7860) = "0.0.0.0"
  /\ resolve_port cpython ∅ = Returned 7860.
Proof.
  assert (Hm : main cpython ∅ = Returned (Launch build_ui "0.0.0.0" 7860))
    by (vm_compute; reflexivity).
  destruct (main_returned cpython ∅ _ Hm) as (_ & Hname & Hport).
  split; [exact Hname | exact Hport].
Defined.


(** X8: under one interpreter configuration, two environments that agree
    on [PORT], and on [HF_SPACE_PORT] when [PORT] is unset, give the same
    start-up: the block reads no other variable. *)
Theorem main_ext py environ environ' :
  environ !! "PORT" = environ' !! "PORT" ->
  (environ !! "PORT" = None ->
   environ !! "HF_SPACE_PORT" = environ' !! "HF_SPACE_PORT") ->
  main py environ = main py environ'.
Proof.
  intros Hp Hh. apply main_resolve_port, resolve_port_ext; assumption.
Qed.

Lemma main_ext_witness :
  main cpython
    {[ "PORT" := "9000"; "HF_SPACE_PORT" := "not a number"; "HOME" := "/root" ]}
  = main cpython {[ "PORT" := "9000" ]}.
Proof.
  apply main_ext.
  - vm_compute. reflexivity.
  - vm_compute. discriminate.
Defined.

(** X9: once [PORT] is set, [HF_SPACE_PORT] is never parsed: setting it
    to any string, malformed ones included, or removing it leaves the
    start-up as it was. *)
Theorem main_update py environ p h :
  environ !! "PORT" = Some p ->
  main py (<["HF_SPACE_PORT" := h]> environ) = main py environ
  /\ main py (delete "HF_SPACE_PORT" environ) = main py environ.
Proof.
  intros Hp. split; apply main_resolve_port, resolve_port_ext.
  - apply lookup_insert_ne. discriminate.
  - rewrite lookup_insert_ne by discriminate. congruence.
  - apply lookup_delete_ne. discriminate.
  - rewrite lookup_delete_ne by discriminate. congruence.
Qed.

Lemma main_update_witness :
  main cpython (<[ "HF_SPACE_PORT" := "oops" ]> {[ "PORT" := "9000" ]})
  = main cpython {[ "PORT" := "9000" ]}
  /\ main cpython (delete "HF_SPACE_PORT" {[ "PORT" := "9000" ]})
     = main cpython {[ "PORT" := "9000" ]}.
Proof.
  apply (main_update cpython {[ "PORT" := "9000" ]} "9000" "oops").
  vm_compute. reflexivity.
Defined.

End PortAnswers.

(** ** Which port a value denotes *)

Section PortValues.

Implicit Types (py : interpreter) (environ : gmap string string).
Implicit Types (v pad ws w : string).

(** The string [int] is applied to, when there is one. *)
Lemma resolve_port_read py environ v :
  environ !! "PORT" = Some v
  \/ (environ !! "PORT" = None /\ environ !! "HF_SPACE_PORT" = Some v) ->
  resolve_port py environ = Py.int py (VStr v).
Proof.
  intros Hv. rewrite resolve_port_cases.
  destruct Hv as [-> | [-> ->]]; reflexivity.
Qed.

Lemma digit_value_range c d : digit_value c = Some d -> 0 <= d <= 9.
Proof.
  destruct c as [[] [] [] [] [] [] [] []]; vm_compute; intros H;
    try discriminate H; injection H as <-; split; discriminate.
Qed.

Lemma decimal_nonneg v :
  forall acc, all_digits v = true -> 0 <= acc -> 0 <= decimal acc v.
Proof.
  induction v as [| c rest IH]; intros acc Hall Hacc; simpl in *; [exact Hacc |].
  destruct (digit_value c) as [d |] eqn:Hd; [| discriminate].
  destruct (digit_value_char _ _ Hd) as (Heq & _ & _).
  apply digit_value_range in Hd. apply IH; [exact Hall | lia].
Qed.

Lemma long_from_string_minus limit v :
  v <> "" -> all_digits v = true ->
  over_limit limit (N.of_nat (String.length v)) = false ->
  long_from_string limit (String "-" v) = Some (- decimal 0 v).
Proof.
  intros Hne Hall Hlen. unfold long_from_string.
  change (skip_spaces (String "-" v)) with (String "-" v).
  change (read_sign (String "-" v)) with (-1, v). cbv beta iota.
  rewrite scan_digits_all_digits by auto.
  rewrite N.add_0_l, Hlen. simpl. f_equal; lia.
Qed.

(** X10: a value made of ASCII decimal digits only, at least one and no
    more than the digit limit of the interpreter lets through (640 are
    always let through), resolves to the number it denotes, leading zeros
    allowed; that number is not negative. *)
Theorem resolve_port_digits py environ v :
  environ !! "PORT" = Some v
  \/ (environ !! "PORT" = None /\ environ !! "HF_SPACE_PORT" = Some v) ->
  v <> "" -> all_digits v = true ->
  over_limit (int_max_str_digits py) (N.of_nat (String.length v)) = false ->
  resolve_port py environ = Returned (decimal 0 v) /\ 0 <= decimal 0 v.
Proof.
  intros Hv Hne Hall Hlen. split.
  - rewrite (resolve_port_read _ _ _ Hv). apply int_digits; assumption.
  - apply decimal_nonneg; [exact Hall | lia].
Qed.

Lemma resolve_port_digits_witness :
  resolve_port cpython {[ "HF_SPACE_PORT" := "0443" ]} = Returned 443.
Proof.
  apply (resolve_port_digits cpython {[ "HF_SPACE_PORT" := "0443" ]} "0443").
  - right. split; vm_compute; reflexivity.
  - discriminate.
  - reflexivity.
  - reflexivity.
Defined.

(** X11: the start-up block checks no range: when the value read is a
    minus sign followed by ASCII decimal digits that the digit limit lets
    through, [launch] is called with the negative number they denote. *)
Theorem main_negative py environ v :
  environ !! "PORT" = Some (String "-" v)
  \/ (environ !! "PORT" = None
      /\ environ !! "HF_SPACE_PORT" = Some (String "-" v)) ->
  v <> "" -> all_digits v = true ->
  over_limit (int_max_str_digits py) (N.of_nat (String.length v)) = false ->
  main py environ = launched_on (- decimal 0 v) /\ - decimal 0 v <= 0.
Proof.
  intros Hv Hne Hall Hlen. split.
  - apply main_resolved. rewrite (resolve_port_read _ _ _ Hv).
    apply int_returned_iff. unfold int_of_str.
    change (is_ascii (String "-" v)) with (is_ascii v).
    rewrite (all_digits_ascii _ Hall).
    apply long_from_string_minus; assumption.
  - pose proof (decimal_nonneg v 0 Hall). lia.
Qed.

Lemma main_negative_witness :
  main cpython {[ "PORT" := "-1" ]} = launched_on (-1).
Proof.
  apply (main_negative cpython {[ "PORT" := "-1" ]} "1").
  - left. vm_compute. reflexivity.
  - discriminate.
  - reflexivity.
  - reflexivity.
Defined.

(** *** White space around the value *)

Lemma append_nil_l w : "" +:+ w = w.
Proof. reflexivity. Qed.

Lemma append_nil_r v : v +:+ "" = v.
Proof.
  induction v as [| c rest IH]; [reflexivity |].
  change (String c rest +:+ "") with (String c (rest +:+ "")).
  rewrite IH. reflexivity.
Qed.

Lemma append_cons c v w : String c v +:+ w = String c (v +:+ w).
Proof. reflexivity. Qed.

Lemma space_char c :
  is_space c = true ->
  digit_value c = None /\ Ascii.eqb c "_" = false
  /\ (N_of_ascii c <? 0x80)%N = true /\ (N_of_ascii c <? 127)%N = true.
Proof.
  destruct c as [[] [] [] [] [] [] [] []]; vm_compute; intros H;
    try discriminate H; repeat split.
Qed.

Lemma skip_all_spaces ws : all_spaces ws = true -> skip_spaces ws = "".
Proof.
  induction ws as [| c rest IH]; simpl; [reflexivity |].
  intros [Hc Hrest]%andb_prop. rewrite Hc. apply IH, Hrest.
Qed.

Lemma skip_spaces_lead ws v :
  all_spaces ws = true -> skip_spaces (ws +:+ v) = skip_spaces v.
Proof.
  induction ws as [| c rest IH]; simpl; [reflexivity |].
  intros [Hc Hrest]%andb_prop. rewrite Hc. apply IH, Hrest.
Qed.

Lemma skip_spaces_trail v ws :
  all_spaces ws = true ->
  skip_spaces (v +:+ ws) =
    match skip_spaces v with
    | EmptyString => EmptyString
    | String c rest => String c rest +:+ ws
    end.
Proof.
  intros Hws. induction v as [| c rest IH]; simpl.
  - apply skip_all_spaces, Hws.
  - destruct (is_space c); [exact IH | reflexivity].
Qed.

Lemma read_sign_trail c rest ws :
  read_sign (String c rest +:+ ws)
  = (fst (read_sign (String c rest)), snd (read_sign (String c rest)) +:+ ws).
Proof. destruct c as [[] [] [] [] [] [] [] []]; reflexivity. Qed.

Lemma scan_digits_trail v ws :
  all_spaces ws = true ->
  forall prev acc n,
    scan_digits (v +:+ ws) prev acc n =
      match scan_digits v prev acc n with
      | Some (z, d, rest) => Some (z, d, rest +:+ ws)
      | None => None
      end.
Proof.
  intros Hws. induction v as [| c rest IH]; intros prev acc n.
  - destruct ws as [| w ws']; [destruct prev; reflexivity |].
    simpl in Hws. apply andb_prop in Hws as [Hw _].
    destruct (space_char _ Hw) as (Hd & Hu & _).
    simpl. rewrite Hd, Hu. destruct prev; reflexivity.
  - simpl. destruct (digit_value c); [apply IH |].
    destruct (Ascii.eqb c "_").
    + destruct prev; [reflexivity | apply IH | reflexivity].
    + destruct prev; reflexivity.
Qed.

Lemma long_from_string_trail limit v ws :
  all_spaces ws = true ->
  long_from_string limit (v +:+ ws) = long_from_string limit v.
Proof.
  intros Hws. unfold long_from_string. rewrite (skip_spaces_trail _ _ Hws).
  destruct (skip_spaces v) as [| c rest]; [reflexivity |].
  rewrite read_sign_trail.
  destruct (read_sign (String c rest)) as [sign body]. simpl fst. simpl snd.
  rewrite (scan_digits_trail _ _ Hws).
  destruct (scan_digits body Nothing 0 0) as [[[z d] tail] |]; [| reflexivity].
  destruct (over_limit limit d); [reflexivity |].
  rewrite (skip_spaces_trail _ _ Hws).
  destruct (skip_spaces tail); reflexivity.
Qed.

Lemma long_from_string_lead limit ws v :
  all_spaces ws = true ->
  long_from_string limit (ws +:+ v) = long_from_string limit v.
Proof.
  intros Hws. unfold long_from_string. rewrite (skip_spaces_lead _ _ Hws).
  reflexivity.
Qed.

Lemma is_ascii_app v w : is_ascii (v +:+ w) = is_ascii v && is_ascii w.
Proof.
  induction v as [| c rest IH]; simpl; [reflexivity |].
  rewrite IH, andb_assoc. reflexivity.
Qed.

Lemma all_spaces_ascii ws : all_spaces ws = true -> is_ascii ws = true.
Proof.
  induction ws as [| c rest IH]; simpl; [reflexivity |].
  intros [Hc Hrest]%andb_prop.
  destruct (space_char _ Hc) as (_ & _ & -> & _). apply IH, Hrest.
Qed.

(** One step of the decoder. *)
Lemma utf8_decode_eq c1 r1 :
  utf8_decode (String c1 r1) =
    let b1 := N_of_ascii c1 in
    let escape (_ : unit) := (0xDC00 + b1)%N :: utf8_decode r1 in
    if (b1 <? 0x80)%N then b1 :: utf8_decode r1
    else if ((0xC2 <=? b1) && (b1 <=? 0xDF))%N then
      match r1 with
      | String c2 r2 =>
          let b2 := N_of_ascii c2 in
          if continuation b2
          then ((b1 - 0xC0) * 64 + (b2 - 0x80))%N :: utf8_decode r2
          else escape tt
      | _ => escape tt
      end
    else if ((0xE0 <=? b1) && (b1 <=? 0xEF))%N then
      match r1 with
      | String c2 (String c3 r3) =>
          let b2 := N_of_ascii c2 in
          let b3 := N_of_ascii c3 in
          let cp := ((b1 - 0xE0) * 4096 + (b2 - 0x80) * 64 + (b3 - 0x80))%N in
          if continuation b2 && continuation b3
             && (0x800 <=? cp)%N && negb (surrogate cp)
          then cp :: utf8_decode r3
          else escape tt
      | _ => escape tt
      end
    else if ((0xF0 <=? b1) && (b1 <=? 0xF4))%N then
      match r1 with
      | String c2 (String c3 (String c4 r4)) =>
          let b2 := N_of_ascii c2 in
          let b3 := N_of_ascii c3 in
          let b4 := N_of_ascii c4 in
          let cp := ((b1 - 0xF0) * 262144 + (b2 - 0x80) * 4096
                     + (b3 - 0x80) * 64 + (b4 - 0x80))%N in
          if continuation b2 && continuation b3 && continuation b4
             && (0x10000 <=? cp)%N && (cp <=? 0x10FFFF)%N
          then cp :: utf8_decode r4
          else escape tt
      | _ => escape tt
      end
    else escape tt.
Proof. reflexivity. Qed.

Lemma utf8_decode_ascii c v :
  (N_of_ascii c <? 0x80)%N = true ->
  utf8_decode (String c v) = N_of_ascii c :: utf8_decode v.
Proof. intros H. rewrite utf8_decode_eq. cbv zeta. rewrite H. reflexivity. Qed.

Lemma ascii_not_continuation c :
  (N_of_ascii c <? 0x80)%N = true -> continuation (N_of_ascii c) = false.
Proof.
  unfold continuation. intros H. apply N.ltb_lt in H.
  apply andb_false_intro1, N.leb_gt. exact H.
Qed.

(** Every remaining test and every match on a string is decided one way
    or the other; the two sides then agree. *)
Ltac decode_cases :=
  repeat match goal with
         | |- context [if ?b then _ else _] => destruct b
         | |- context [match ?s with
                       | EmptyString => _
                       | String _ _ => _
                       end] => destruct s
         end;
  reflexivity.

(** A sequence cut short by an ASCII byte is as undecodable as at the end
    of the string: decoding goes through the seam. *)
Lemma utf8_decode_app_ascii c w :
  (N_of_ascii c <? 0x80)%N = true ->
  forall n v, (String.length v <= n)%nat ->
    utf8_decode (v +:+ String c w)
    = utf8_decode v ++ utf8_decode (String c w).
Proof.
  intros Hc. pose proof (ascii_not_continuation c Hc) as Hcont.
  remember (utf8_decode (String c w)) as tail eqn:Htail.
  assert (Hnil : utf8_decode ("" +:+ String c w) = utf8_decode "" ++ tail)
    by (subst tail; reflexivity).
  induction n as [| n IH]; intros v Hlen.
  - destruct v; [exact Hnil | simpl in Hlen; lia].
  - destruct v as [| c1 r1]; [exact Hnil |].
    rewrite append_cons, (utf8_decode_eq c1 r1),
      (utf8_decode_eq c1 (r1 +:+ String c w)).
    cbv zeta. rewrite (IH r1) by (simpl in Hlen; lia).
    destruct r1 as [| c2 r2].
    { rewrite append_nil_l. cbv iota beta.
      rewrite Hcont, ?andb_false_r. cbn [andb]. decode_cases. }
    rewrite append_cons. cbv iota beta.
    rewrite (IH r2) by (simpl in Hlen; lia).
    destruct r2 as [| c3 r3].
    { rewrite append_nil_l. cbv iota beta.
      rewrite Hcont, ?andb_false_r. cbn [andb]. decode_cases. }
    rewrite append_cons. cbv iota beta.
    rewrite (IH r3) by (simpl in Hlen; lia).
    destruct r3 as [| c4 r4].
    { rewrite append_nil_l. cbv iota beta.
      rewrite Hcont, ?andb_false_r. cbn [andb]. decode_cases. }
    rewrite append_cons. cbv iota beta.
    rewrite (IH r4) by (simpl in Hlen; lia).
    decode_cases.
Qed.

Lemma transform_space py c cps :
  is_space c = true ->
  transform_decimal_and_space py (N_of_ascii c :: cps)
  = String c (transform_decimal_and_space py cps).
Proof.
  intros Hc. destruct (space_char _ Hc) as (_ & _ & _ & H127).
  simpl. rewrite H127, ascii_N_embedding. reflexivity.
Qed.

(** White space in front goes through decoding and transformation as it
    is. *)
Lemma transform_lead py ws v :
  all_spaces ws = true ->
  transform_decimal_and_space py (utf8_decode (ws +:+ v))
  = ws +:+ transform_decimal_and_space py (utf8_decode v).
Proof.
  induction ws as [| c rest IH]; [reflexivity |].
  simpl all_spaces. intros [Hc Hrest]%andb_prop.
  destruct (space_char _ Hc) as (_ & _ & H80 & _).
  rewrite !append_cons, (utf8_decode_ascii _ _ H80), (transform_space _ _ _ Hc).
  rewrite (IH Hrest). reflexivity.
Qed.

(** White space at the end is either kept as it is or, when the
    transformation stopped at a character it does not know, dropped. *)
Lemma transform_trail py ws :
  all_spaces ws = true ->
  forall cps,
    transform_decimal_and_space py (cps ++ utf8_decode ws)
    = transform_decimal_and_space py cps
    \/ transform_decimal_and_space py (cps ++ utf8_decode ws)
       = transform_decimal_and_space py cps +:+ ws.
Proof.
  intros Hws. induction cps as [| ch rest IH].
  - right. pose proof (transform_lead py ws "" Hws) as H.
    change (transform_decimal_and_space py (utf8_decode "")) with "" in H.
    rewrite !append_nil_r in H. exact H.
  - simpl. destruct (ch <? 127)%N.
    { destruct IH as [-> | ->]; [left | right]; reflexivity. }
    destruct (unicode_isspace py ch).
    { destruct IH as [-> | ->]; [left | right]; reflexivity. }
    destruct (unicode_todecimal py ch); [| left; reflexivity].
    destruct IH as [-> | ->]; [left | right]; reflexivity.
Qed.

(** [int] ignores ASCII white space on both sides of any string. *)
Lemma int_of_str_padded py pad v pad' :
  all_spaces pad = true -> all_spaces pad' = true ->
  int_of_str py (pad +:+ v +:+ pad') = int_of_str py v.
Proof.
  intros Hpad Hpad'. unfold int_of_str.
  rewrite !is_ascii_app, (all_spaces_ascii _ Hpad), (all_spaces_ascii _ Hpad').
  rewrite andb_true_r. cbn [andb].
  destruct (is_ascii v).
  - rewrite (long_from_string_lead _ _ _ Hpad).
    apply long_from_string_trail, Hpad'.
  - rewrite (transform_lead _ _ _ Hpad), (long_from_string_lead _ _ _ Hpad).
    destruct pad' as [| c w]; [rewrite append_nil_r; reflexivity |].
    assert (Hc : (N_of_ascii c <? 0x80)%N = true).
    { simpl in Hpad'. apply andb_prop in Hpad' as [Hc _].
      apply (space_char _ Hc). }
    rewrite (utf8_decode_app_ascii c w Hc (String.length v) v) by lia.
    destruct (transform_trail py (String c w) Hpad' (utf8_decode v))
      as [-> | ->]; [reflexivity |].
    apply long_from_string_trail, Hpad'.
Qed.

(** X12: ASCII white space (blank, tab, line feed, vertical tab, form
    feed, carriage return) around the value read is ignored: the padded
    value resolves to the same port, or to the same failure, as the bare
    value, whatever the bare value is. *)
Theorem resolve_port_padded py environ pad v pad' :
  environ !! "PORT" = Some (pad +:+ v +:+ pad')
  \/ (environ !! "PORT" = None
      /\ environ !! "HF_SPACE_PORT" = Some (pad +:+ v +:+ pad')) ->
  all_spaces pad = true -> all_spaces pad' = true ->
  resolve_port py environ = Py.int py (VStr v).
Proof.
  intros Hv Hpad Hpad'. rewrite (resolve_port_read _ _ _ Hv). simpl.
  rewrite (int_of_str_padded _ _ _ _ Hpad Hpad'). reflexivity.
Qed.

Lemma resolve_port_padded_witness :
  resolve_port cpython {[ "PORT" := " ８０８０" +:+ Space.nl ]} = Returned 8080.
Proof.
  apply (resolve_port_padded cpython
           {[ "PORT" := " ８０８０" +:+ Space.nl ]} " " "８０８０" Space.nl).
  - left. vm_compute. reflexivity.
  - reflexivity.
  - reflexivity.
Defined.

End PortValues.
